(** * The Ollama content generator: a protocol adapter between the generic
      "generate content" interface and an OpenAI-style chat-completion
      backend (packages/core/src/core/ollamaContentGenerator.ts).

    Modelling conventions.
    - A JavaScript string is a [string]: one [ascii] per code unit, so
      [String.length] is the [.length] of the source.
    - An optional field [f?: T] is an [option T]; [None] stands for
      [undefined] (and [null]).
    - Numbers are only carried through, never computed with, except for the
      token estimate: counts are [Z], sampling knobs are [Q].
    - [async] code is a small tree of effects ([Async]) whose only effect is
      the network call; a run against a network records the calls made. *)

From Stdlib Require Import List String Ascii Bool ZArith NArith QArith Qround Lia.
From Stdlib Require Import DecimalString.
Import ListNotations.

Set Warnings "-register-all".

Close Scope Q_scope.
Open Scope list_scope.
Open Scope string_scope.

(** ** JavaScript strings *)

Definition dquote : string := String "034"%char EmptyString.
Definition newline : string := String "010"%char EmptyString.
Definition backslash : string := String "092"%char EmptyString.

(** Truthiness of a string: every string but the empty one. *)
Definition truthyString (s : string) : bool :=
  match s with
  | EmptyString => false
  | String _ _ => true
  end.

(** [Array.prototype.join]. *)
Fixpoint join (sep : string) (l : list string) : string :=
  match l with
  | [] => ""
  | [x] => x
  | x :: rest => x ++ sep ++ join sep rest
  end.

(** A template literal prints a missing value as [undefined]. *)
Definition templateString (s : option string) : string :=
  match s with
  | Some v => v
  | None => "undefined"
  end.

(** [haystack.includes(needle)] as a proposition. *)
Definition contains (needle haystack : string) : Prop :=
  exists before after, haystack = before ++ needle ++ after.

(** Decimal rendering of integers, as [String(n)] prints them. *)
Definition stringOfN (n : N) : string := NilZero.string_of_uint (N.to_uint n).
Definition stringOfZ (z : Z) : string := NilZero.string_of_int (Z.to_int z).

(** ** JSON values and [JSON.stringify] *)

Module Json.

(** A JSON value.  An object is the list of its own enumerable properties
    in enumeration order.  Numbers are the integer-valued ones that print
    in plain decimal, those of magnitude below 10^21; larger ones, which
    print with an exponent, and fractions are outside the model. *)
Inductive value : Type :=
| Null : value
| Bool : bool -> value
| Num : Z -> value
| Str : string -> value
| Arr : list value -> value
| Obj : list (string * value) -> value.

Definition object : Type := list (string * value).

Definition hexDigit (n : N) : ascii :=
  match n with
  | 0%N => "0" | 1%N => "1" | 2%N => "2" | 3%N => "3"
  | 4%N => "4" | 5%N => "5" | 6%N => "6" | 7%N => "7"
  | 8%N => "8" | 9%N => "9" | 10%N => "a" | 11%N => "b"
  | 12%N => "c" | 13%N => "d" | 14%N => "e" | _ => "f"
  end%char.

(** QuoteJSONString, one code unit. *)
Definition escapeChar (c : ascii) : string :=
  let n := N_of_ascii c in
  if (n =? 8)%N then backslash ++ "b"
  else if (n =? 9)%N then backslash ++ "t"
  else if (n =? 10)%N then backslash ++ "n"
  else if (n =? 12)%N then backslash ++ "f"
  else if (n =? 13)%N then backslash ++ "r"
  else if (n =? 34)%N then backslash ++ dquote
  else if (n =? 92)%N then backslash ++ backslash
  else if (n <? 32)%N then
    backslash ++ "u00"
      ++ String (hexDigit (n / 16)) (String (hexDigit (n mod 16)) "")
  else String c "".

Fixpoint escape (s : string) : string :=
  match s with
  | EmptyString => ""
  | String c rest => escapeChar c ++ escape rest
  end.

Definition quote (s : string) : string := dquote ++ escape s ++ dquote.

(** [JSON.stringify] without indentation. *)
Fixpoint stringify (v : value) : string :=
  match v with
  | Null => "null"
  | Bool true => "true"
  | Bool false => "false"
  | Num z => stringOfZ z
  | Str s => quote s
  | Arr items => "[" ++ join "," (map stringify items) ++ "]"
  | Obj props =>
      "{" ++ join "," (map (fun kv => quote (fst kv) ++ ":" ++ stringify (snd kv)) props) ++ "}"
  end.

Definition stringifyObject (o : object) : string := stringify (Obj o).

End Json.

(** ** The generic content model ('@google/genai') *)

Module FunctionCall.
Record t : Type := mk { name : option string; args : option Json.object }.
End FunctionCall.

Module FunctionResponse.
Record t : Type := mk { name : option string; response : option Json.object }.
End FunctionResponse.

Module Part.
(** A duck-typed part: whichever field is present decides how it is
    read.  Fields the adapter never looks at are left out. *)
Record t : Type := mk {
  text : option string;
  functionCall : option FunctionCall.t;
  functionResponse : option FunctionResponse.t
}.

Definition ofText (s : string) : t := mk (Some s) None None.
Definition empty : t := mk None None None.
End Part.

Module Content.
Record t : Type := mk { role : option string; parts : option (list Part.t) }.
End Content.

(** [x || []] on an optional array: an array is always truthy. *)
Definition orEmpty {A : Type} (l : option (list A)) : list A :=
  match l with
  | Some v => v
  | None => []
  end.

(** [x ?? {}] on an optional object. *)
Definition orEmptyObject (o : option Json.object) : Json.object :=
  match o with
  | Some v => v
  | None => []
  end.

(** ** The part renderer *)

(** A value that passes [if (value)]: a present, non-empty string. *)
Definition whenTruthy (t : option string) : option string :=
  match t with
  | Some s => if truthyString s then Some s else None
  | None => None
  end.

(** The callback of [parts.map] in [partsToContent]. *)
Definition renderPart (part : Part.t) : string :=
  match whenTruthy (Part.text part) with
  | Some text => text
  | None =>
      match Part.functionCall part with
      | Some call =>
          "Function call " ++ templateString (FunctionCall.name call) ++ ": "
            ++ Json.stringifyObject (orEmptyObject (FunctionCall.args call))
      | None =>
          match Part.functionResponse part with
          | Some resp =>
              "Function response " ++ templateString (FunctionResponse.name resp) ++ ": "
                ++ Json.stringifyObject (orEmptyObject (FunctionResponse.response resp))
          | None => ""
          end
      end
  end.

Definition partsToContent (parts : list Part.t) : string :=
  join newline (filter truthyString (map renderPart parts)).

(** ** Backend messages *)

Module Message.
Record t : Type := mk { role : string; content : string }.
End Message.

Definition toOpenAiMessages (contents : list Content.t) : list Message.t :=
  map (fun content =>
         Message.mk
           (match Content.role content with
            | Some r => if String.eqb r "user" then "user" else "assistant"
            | None => "assistant"
            end)
           (partsToContent (orEmpty (Content.parts content))))
      contents.

(** ** The backend's reply *)

Module ChoiceMessage.
(** The shape of both [message] and [delta]. *)
Record t : Type := mk { content : option string }.
End ChoiceMessage.

Module Choice.
Record t : Type := mk {
  message : option ChoiceMessage.t;
  delta : option ChoiceMessage.t;
  finish_reason : option string
}.
End Choice.

Module Usage.
Record t : Type := mk {
  prompt_tokens : option Z;
  completion_tokens : option Z;
  total_tokens : option Z
}.
End Usage.

Module OllamaResponse.
Record t : Type := mk { choices : option (list Choice.t); usage : option Usage.t }.
End OllamaResponse.

(** ** The generic response *)

(** The values of '@google/genai' [FinishReason] the adapter can name,
    with the library's other values kept so that the type is not a
    two-element one by construction. *)
Inductive FinishReason : Type :=
| FINISH_REASON_UNSPECIFIED
| STOP
| MAX_TOKENS
| SAFETY
| RECITATION
| OTHER.

Module UsageMetadata.
Record t : Type := mk {
  promptTokenCount : option Z;
  candidatesTokenCount : option Z;
  totalTokenCount : option Z
}.
End UsageMetadata.

Module Candidate.
Record t : Type := mk { content : Content.t; finishReason : FinishReason }.
End Candidate.

Module GenerateContentResponse.
Record t : Type := mk {
  candidates : list Candidate.t;
  usageMetadata : option UsageMetadata.t
}.
End GenerateContentResponse.

(** [a ?? b] on optional values. *)
Definition nullish {A : Type} (a : option A) (b : A) : A :=
  match a with
  | Some v => v
  | None => b
  end.

(** [a?.f] where [f] is itself optional. *)
Definition chain {A B : Type} (a : option A) (f : A -> option B) : option B :=
  match a with
  | Some v => f v
  | None => None
  end.

(** ** Requests *)

Inductive SystemInstruction : Type :=
| InstructionString (s : string)
| InstructionContent (c : Content.t).

Module GenerationConfig.
Record t : Type := mk {
  temperature : option Q;
  topP : option Q;
  maxOutputTokens : option Z
}.
End GenerationConfig.

Module OllamaRequestConfig.
Record t : Type := mk {
  generationConfig : option GenerationConfig.t;
  systemInstruction : option SystemInstruction
}.
End OllamaRequestConfig.

Module GenerateContentParameters.
(** [contents] is [None] when the field is falsy, so that
    [request.contents || []] takes the empty array. *)
Record t (ContentListUnion : Type) : Type := mk {
  model : option string;
  contents : option ContentListUnion;
  config : option OllamaRequestConfig.t
}.
Arguments mk {ContentListUnion}.
Arguments model {ContentListUnion}.
Arguments contents {ContentListUnion}.
Arguments config {ContentListUnion}.
End GenerateContentParameters.

Module CountTokensParameters.
Record t (ContentListUnion : Type) : Type := mk {
  contents : option ContentListUnion
}.
Arguments mk {ContentListUnion}.
Arguments contents {ContentListUnion}.
End CountTokensParameters.

Module CountTokensResponse.
Record t : Type := mk { totalTokens : Z }.
End CountTokensResponse.

(** ** The wire *)

Module ChatBody.
(** The object handed to [JSON.stringify] as the request body; its text
    encoding is not modelled, the request carries the object. *)
Record t : Type := mk {
  model : string;
  messages : list Message.t;
  stream : bool;
  temperature : option Q;
  top_p : option Q;
  max_tokens : option Z
}.
End ChatBody.

Module RequestInit.
Record t : Type := mk {
  method : string;
  headers : list (string * string);
  body : ChatBody.t
}.
End RequestInit.

(** How a promise settles. *)
Inductive Outcome (A : Type) : Type :=
| Fulfilled (value : A)
| Rejected (message : string).
Arguments Fulfilled {A}.
Arguments Rejected {A}.

Module HttpResponse.
(** What the adapter reads of a fetch [Response]: the status, the body as
    [response.text()] gives it, and how [response.json()] settles. *)
Record t : Type := mk {
  status : N;
  text : string;
  json : Outcome (option OllamaResponse.t)
}.

(** [response.ok]: the status is in the range 200-299. *)
Definition ok (r : t) : bool := ((200 <=? status r) && (status r <=? 299))%N.
End HttpResponse.

(** ** Asynchronous code *)

(** An [async] body: it resolves, throws, or awaits a [fetch] and goes on
    with the response. *)
Inductive Async (A : Type) : Type :=
| Resolve (value : A)
| Throw (message : string)
| Fetch (url : string) (init : RequestInit.t) (k : HttpResponse.t -> Async A).
Arguments Resolve {A}.
Arguments Throw {A}.
Arguments Fetch {A}.

Fixpoint bind {A B : Type} (p : Async A) (f : A -> Async B) : Async B :=
  match p with
  | Resolve v => f v
  | Throw e => Throw e
  | Fetch url init k => Fetch url init (fun r => bind (k r) f)
  end.

(** The network answers a call with a response, or the call is rejected. *)
Definition Network : Type := string -> RequestInit.t -> Outcome HttpResponse.t.

(** Running a body against a network: the calls made, in order, and how
    the returned promise settles. *)
Fixpoint run {A : Type} (net : Network) (p : Async A)
  : list (string * RequestInit.t) * Outcome A :=
  match p with
  | Resolve v => ([], Fulfilled v)
  | Throw e => ([], Rejected e)
  | Fetch url init k =>
      match net url init with
      | Rejected e => ([(url, init)], Rejected e)
      | Fulfilled r =>
          let (calls, out) := run net (k r) in ((url, init) :: calls, out)
      end
  end.

(** ** The generator *)

Module OllamaOptions.
Record t : Type := mk { baseUrl : string; model : string }.
End OllamaOptions.

Module OllamaContentGenerator.
Record t : Type := mk { baseUrl : string; model : string }.
End OllamaContentGenerator.

(** [s.replace(/\/$/, '')]: one slash is removed when it ends the string. *)
Fixpoint stripTrailingSlash (s : string) : string :=
  match s with
  | EmptyString => ""
  | String c rest =>
      if (Ascii.eqb c "/" && negb (truthyString rest))%bool then ""
      else String c (stripTrailingSlash rest)
  end.

(** Whether [/\/$/] matches: the last code unit is a slash. *)
Fixpoint endsWithSlash (s : string) : bool :=
  match s with
  | EmptyString => false
  | String c rest => if truthyString rest then endsWithSlash rest else Ascii.eqb c "/"
  end.

Definition constructor (options : OllamaOptions.t) : OllamaContentGenerator.t :=
  OllamaContentGenerator.mk
    (stripTrailingSlash (OllamaOptions.baseUrl options))
    (OllamaOptions.model options).

(** [value === 'length'] on an optional string. *)
Definition isLength (reason : option string) : bool :=
  match reason with
  | Some s => String.eqb s "length"
  | None => false
  end.

(** [a ?? b] where [b] may be missing too. *)
Definition orElse {A : Type} (a b : option A) : option A :=
  match a with
  | Some v => Some v
  | None => b
  end.

(** Whether [if (systemInstruction)] passes: an object always does, a
    string does unless it is empty. *)
Definition truthyInstruction (systemInstruction : option SystemInstruction) : bool :=
  match systemInstruction with
  | Some (InstructionString s) => truthyString s
  | Some (InstructionContent _) => true
  | None => false
  end.

(** [data?.choices?.[0]]. *)
Definition firstChoice (data : option OllamaResponse.t) : option Choice.t :=
  chain (chain data OllamaResponse.choices) (fun cs => nth_error cs 0).

(** [choice?.message?.content] and [choice?.delta?.content]. *)
Definition messageContent (choice : option Choice.t) : option string :=
  chain (chain choice Choice.message) ChoiceMessage.content.

Definition deltaContent (choice : option Choice.t) : option string :=
  chain (chain choice Choice.delta) ChoiceMessage.content.

Definition embedUnsupported : string :=
  "Embedding is not supported for Ollama backends yet.".

(** What the generator takes from outside this file: the
    '@google/genai' type [ContentListUnion] with the array literal [[]], and
    the functions imported from modules of the repository that are not
    among the sources ('../code_assist/converter.js', './geminiRequest.js'
    and '../utils/errors.js'). *)
Class Imports : Type := {
  ContentListUnion : Type;
  emptyArray : ContentListUnion;
  toContents : ContentListUnion -> list Content.t;
  partListUnionToString : list Part.t -> string;
  getErrorMessage : option Choice.t -> string
}.

Section Generator.

Context {imports : Imports}.

Definition contentsOrEmpty (contents : option ContentListUnion) : ContentListUnion :=
  nullish contents emptyArray.

(** The spread [...(systemInstruction ? [{role: 'system', ...}] : [])]. *)
Definition systemMessages (systemInstruction : option SystemInstruction)
  : list Message.t :=
  if truthyInstruction systemInstruction then
    [ Message.mk "system"
        (match systemInstruction with
         | Some (InstructionString s) => s
         | Some (InstructionContent c) => partsToContent (orEmpty (Content.parts c))
         | None => partsToContent (orEmpty None)
         end) ]
  else [].

(** The [messages] constant of [generateContent]. *)
Definition requestMessages (request : GenerateContentParameters.t ContentListUnion)
  : list Message.t :=
  let contents := toContents (contentsOrEmpty (GenerateContentParameters.contents request)) in
  let requestConfig := GenerateContentParameters.config request in
  let systemInstruction := chain requestConfig OllamaRequestConfig.systemInstruction in
  (systemMessages systemInstruction ++ toOpenAiMessages contents)%list.

(** The [body] constant of [generateContent]. *)
Definition requestBody (this : OllamaContentGenerator.t)
    (request : GenerateContentParameters.t ContentListUnion) : ChatBody.t :=
  let requestConfig := GenerateContentParameters.config request in
  let genConfig := chain requestConfig OllamaRequestConfig.generationConfig in
  ChatBody.mk
    (nullish (whenTruthy (GenerateContentParameters.model request))
             (OllamaContentGenerator.model this))
    (requestMessages request)
    false
    (chain genConfig GenerationConfig.temperature)
    (chain genConfig GenerationConfig.topP)
    (chain genConfig GenerationConfig.maxOutputTokens).

Definition fromOpenAiResponse (data : option OllamaResponse.t)
  : GenerateContentResponse.t :=
  let choice := firstChoice data in
  let text :=
    nullish (orElse (messageContent choice) (deltaContent choice))
            (getErrorMessage choice) in
  let finishReason :=
    if isLength (chain choice Choice.finish_reason) then MAX_TOKENS else STOP in
  GenerateContentResponse.mk
    [ Candidate.mk (Content.mk (Some "model") (Some [Part.ofText text])) finishReason ]
    (match chain data OllamaResponse.usage with
     | Some usage =>
         Some (UsageMetadata.mk
                 (Usage.prompt_tokens usage)
                 (Usage.completion_tokens usage)
                 (Usage.total_tokens usage))
     | None => None
     end).

(** The two arguments of the [fetch] call. *)
Definition chatUrl (this : OllamaContentGenerator.t) : string :=
  OllamaContentGenerator.baseUrl this ++ "/chat/completions".

Definition chatInit (this : OllamaContentGenerator.t)
    (request : GenerateContentParameters.t ContentListUnion) : RequestInit.t :=
  RequestInit.mk "POST" [("Content-Type", "application/json")]
    (requestBody this request).

Definition generateContent (this : OllamaContentGenerator.t)
    (request : GenerateContentParameters.t ContentListUnion)
    (_userPromptId : string) : Async GenerateContentResponse.t :=
  Fetch (chatUrl this) (chatInit this request)
    (fun response =>
       if negb (HttpResponse.ok response) then
         Throw ("Ollama request failed (" ++ stringOfN (HttpResponse.status response)
                  ++ "): " ++ HttpResponse.text response)
       else
         match HttpResponse.json response with
         | Rejected e => Throw e
         | Fulfilled data => Resolve (fromOpenAiResponse data)
         end).

(** The stream of [generateContentStream]: the one response, as the list
    of what the generator yields. *)
Definition generateContentStream (this : OllamaContentGenerator.t)
    (request : GenerateContentParameters.t ContentListUnion)
    (userPromptId : string) : Async (list GenerateContentResponse.t) :=
  bind (generateContent this request userPromptId) (fun resp => Resolve [resp]).

(** The text whose length [countTokens] measures. *)
Definition countTokensText (request : CountTokensParameters.t ContentListUnion)
  : string :=
  let contents := toContents (contentsOrEmpty (CountTokensParameters.contents request)) in
  let allParts := flat_map (fun c => orEmpty (Content.parts c)) contents in
  partListUnionToString allParts.

(** [Math.max(1, Math.ceil(length / 4))], the quotient taken exactly. *)
Definition estimateTokens (length : nat) : Z :=
  Z.max 1 (Qceiling (inject_Z (Z.of_nat length) / 4)%Q).

Definition countTokens (request : CountTokensParameters.t ContentListUnion)
  : Async CountTokensResponse.t :=
  let text := countTokensText request in
  let estimatedTokens := estimateTokens (String.length text) in
  Resolve (CountTokensResponse.mk estimatedTokens).

Definition embedContent {EmbedContentParameters EmbedContentResponse : Type}
    (_request : EmbedContentParameters) : Async EmbedContentResponse :=
  Throw embedUnsupported.

End Generator.

(** ** The specification's reading of the part renderer *)

(** A part as the specification has it: a tagged variant with exactly one
    alternative populated. *)
Inductive PartVariant : Type :=
| TextPart (text : string)
| FunctionCallPart (name : string) (args : option Json.object)
| FunctionResponsePart (name : string) (response : option Json.object)
| OtherPart.

(** The duck-typed part that carries a variant. *)
Definition toPart (v : PartVariant) : Part.t :=
  match v with
  | TextPart text => Part.mk (Some text) None None
  | FunctionCallPart name args =>
      Part.mk None (Some (FunctionCall.mk (Some name) args)) None
  | FunctionResponsePart name response =>
      Part.mk None None (Some (FunctionResponse.mk (Some name) response))
  | OtherPart => Part.empty
  end.

(** The JSON text of an argument or response mapping, ["{}"] if absent. *)
Definition encodeOrBraces (o : option Json.object) : string :=
  match o with
  | Some v => Json.stringifyObject v
  | None => "{}"
  end.

(** The one string a variant is mapped to. *)
Definition specLine (v : PartVariant) : string :=
  match v with
  | TextPart text => text
  | FunctionCallPart name args =>
      "Function call " ++ name ++ ": " ++ encodeOrBraces args
  | FunctionResponsePart name response =>
      "Function response " ++ name ++ ": " ++ encodeOrBraces response
  | OtherPart => ""
  end.

(** Dropping the empty strings and separating the others by a newline,
    read off one string at a time. *)
Fixpoint flattenLines (lines : list string) : string :=
  match lines with
  | [] => ""
  | line :: rest =>
      let tail := flattenLines rest in
      if truthyString line then
        if truthyString tail then line ++ newline ++ tail else line
      else tail
  end.

Definition specPartRenderer (vs : list PartVariant) : string :=
  flattenLines (map specLine vs).

(** Modelled from the spec: [partListUnionToString] of './geminiRequest.js'
    is not among the sources.  The specification of the token estimator
    says only that the parts are rendered "through the Part
    Renderer-equivalent flattening"; this definition takes those words at
    their face, with the part renderer's own string for each part.  It
    gives the closed instances a text to measure and nothing more: what
    the imported function does is left open, and the properties of the
    generator are proved for every [partListUnionToString]. *)
Definition partListUnionToString_spec (parts : list Part.t) : string :=
  flattenLines (map renderPart parts).

(** A string that holds no newline. *)
Definition singleLine (s : string) : Prop :=
  ~ In "010"%char (list_ascii_of_string s).

(** ** Concrete imports, for closed examples *)

(** Modelled from the spec: [toContents] of '../code_assist/converter.js'
    is not among the sources.  The specification takes the contents of a
    request to be an ordered list of Content, on which nothing is left to
    convert. *)
Definition toContentsArray (contents : list Content.t) : list Content.t := contents.

(** Modelled from the spec: [getErrorMessage] of '../utils/errors.js' is not
    among the sources.  The specification says it gives "a synthesized
    error-description string derived from the raw choice data"; this one
    tells a missing choice from a present one. *)
Definition getErrorMessageString (choice : option Choice.t) : string :=
  match choice with
  | Some _ => "[object Object]"
  | None => "undefined"
  end.

(** The imports as the specification describes them. *)
Definition specImports : Imports := {|
  ContentListUnion := list Content.t;
  emptyArray := [];
  toContents := toContentsArray;
  partListUnionToString := partListUnionToString_spec;
  getErrorMessage := getErrorMessageString
|}.

(** * Properties *)

(** ** Strings and lists *)

Lemma truthyString_true (s : string) : truthyString s = true <-> s <> "".
Proof.
  destruct s; simpl; split; intro H; try reflexivity; try discriminate.
  now elim H.
Qed.

Lemma truthyString_app_l (s t : string) :
  truthyString s = true -> truthyString (s ++ t) = true.
Proof. destruct s; simpl; [discriminate | reflexivity]. Qed.

(** A join of non-empty strings is empty only when there are none. *)
Lemma join_truthy (sep : string) (l : list string) :
  Forall (fun s => truthyString s = true) l ->
  truthyString (join sep l) = negb (Nat.eqb (List.length l) 0).
Proof.
  intros Hall. destruct Hall as [| x l Hx Hl]; [reflexivity |].
  destruct l as [| y l]; simpl.
  - exact Hx.
  - now apply truthyString_app_l.
Qed.

Lemma filter_truthy_Forall (l : list string) :
  Forall (fun s => truthyString s = true) (filter truthyString l).
Proof.
  apply Forall_forall. intros s Hin. apply filter_In in Hin. tauto.
Qed.

(** The recursive reading of "drop the empty strings, join the others" is
    the [filter]/[join] pipeline of the source. *)
Lemma flattenLines_join (l : list string) :
  flattenLines l = join newline (filter truthyString l).
Proof.
  induction l as [| line rest IH]; [reflexivity |].
  simpl. destruct (truthyString line) eqn:Hline; [| exact IH].
  rewrite IH.
  rewrite (join_truthy newline (filter truthyString rest) (filter_truthy_Forall rest)).
  destruct (filter truthyString rest) as [| y l]; reflexivity.
Qed.

Lemma join_all_empty (l : list string) :
  Forall (fun s => s = "") l -> join newline (filter truthyString l) = "".
Proof.
  induction 1 as [| s l Hs _ IH]; [reflexivity |].
  subst s. simpl. exact IH.
Qed.

Lemma contains_middle (before needle after : string) :
  contains needle (before ++ needle ++ after).
Proof. exists before, after. reflexivity. Qed.

Lemma string_app_assoc (a b c : string) : (a ++ b) ++ c = a ++ b ++ c.
Proof. induction a as [| ch a IH]; simpl; [reflexivity | now rewrite IH]. Qed.

Lemma string_app_nil_r (a : string) : a ++ "" = a.
Proof. induction a as [| ch a IH]; simpl; [reflexivity | now rewrite IH]. Qed.

(** ** The part renderer *)

Lemma encodeOrBraces_stringify (o : option Json.object) :
  Json.stringifyObject (orEmptyObject o) = encodeOrBraces o.
Proof. destruct o; reflexivity. Qed.

Lemma whenTruthy_nonempty (v : string) : v <> "" -> whenTruthy (Some v) = Some v.
Proof.
  intros Hv. simpl. apply truthyString_true in Hv. now rewrite Hv.
Qed.

Lemma renderPart_toPart (v : PartVariant) : renderPart (toPart v) = specLine v.
Proof.
  destruct v as [text | name args | name response |]; unfold renderPart; simpl.
  - destruct text; reflexivity.
  - now rewrite encodeOrBraces_stringify.
  - now rewrite encodeOrBraces_stringify.
  - reflexivity.
Qed.

(** C3. The part renderer maps every part, in order, to one string --
    a text part to its text, a function-call part to
    [Function call <name>: <JSON of the arguments, or {} if absent>], a
    function-response part to
    [Function response <name>: <JSON of the response, or {} if absent>],
    any other part to the empty string -- drops the empty strings and joins
    the others with a newline; a function-call part named [lookup] with the
    arguments [{"q":"x"}] renders to [Function call lookup: {"q":"x"}]. *)
Theorem partsToContent_renders_variants :
  (forall vs : list PartVariant,
      partsToContent (map toPart vs)
      = join newline (filter truthyString (map specLine vs))
      /\ partsToContent (map toPart vs) = specPartRenderer vs)
  /\ partsToContent
       [toPart (FunctionCallPart "lookup" (Some [("q", Json.Str "x")]))]
     = "Function call lookup: {" ++ dquote ++ "q" ++ dquote ++ ":"
         ++ dquote ++ "x" ++ dquote ++ "}".
Proof.
  split; [| reflexivity].
  intros vs.
  assert (Hmap : map renderPart (map toPart vs) = map specLine vs).
  { rewrite map_map. apply map_ext. exact renderPart_toPart. }
  unfold partsToContent, specPartRenderer. rewrite Hmap.
  split; [reflexivity | now rewrite flattenLines_join].
Qed.

(** C10. Overlapping fields of a part are resolved by a fixed precedence:
    a truthy [text] is rendered and [functionCall] and [functionResponse]
    on the same part are ignored; [functionCall] goes before
    [functionResponse]; a part whose [text] is the empty string is read as
    if [text] were not there, and falls through to the other two. *)
Theorem renderPart_precedence :
  (forall (part : Part.t) (t : string),
      Part.text part = Some t -> t <> "" -> renderPart part = t)
  /\ (forall (part : Part.t) (call : FunctionCall.t),
        whenTruthy (Part.text part) = None ->
        Part.functionCall part = Some call ->
        renderPart part
        = renderPart (Part.mk None (Some call) None))
  /\ (forall (call : option FunctionCall.t) (resp : option FunctionResponse.t),
        renderPart (Part.mk (Some "") call resp)
        = renderPart (Part.mk None call resp)).
Proof.
  split; [| split].
  - intros part t Htext Ht. unfold renderPart.
    rewrite Htext, (whenTruthy_nonempty t Ht). reflexivity.
  - intros part call Htext Hcall. unfold renderPart.
    rewrite Htext, Hcall. reflexivity.
  - intros call resp. reflexivity.
Qed.

Lemma renderPart_precedence_witness :
  renderPart
    (Part.mk (Some "hello")
       (Some (FunctionCall.mk (Some "lookup") None))
       (Some (FunctionResponse.mk (Some "lookup") None)))
  = "hello"
  /\ renderPart
       (Part.mk (Some "")
          (Some (FunctionCall.mk (Some "lookup") None))
          (Some (FunctionResponse.mk (Some "other") None)))
     = "Function call lookup: {}".
Proof.
  split.
  - apply (proj1 renderPart_precedence
             (Part.mk (Some "hello")
                (Some (FunctionCall.mk (Some "lookup") None))
                (Some (FunctionResponse.mk (Some "lookup") None)))
             "hello").
    + reflexivity.
    + discriminate.
  - rewrite (proj1 (proj2 renderPart_precedence)
               (Part.mk (Some "")
                  (Some (FunctionCall.mk (Some "lookup") None))
                  (Some (FunctionResponse.mk (Some "other") None)))
               (FunctionCall.mk (Some "lookup") None)).
    + reflexivity.
    + reflexivity.
    + reflexivity.
Defined.

(** ** The response translator *)

Section ResponseProperties.

Context {imports : Imports}.

(** C2. The translation of a backend response has exactly one candidate;
    its text is the first choice's message content, or when that is absent
    the first choice's delta content, or when both are absent the
    error-description string; the usage record is a field-for-field copy
    of the backend's when there is one, and is absent otherwise. *)
Theorem fromOpenAiResponse_translation (data : option OllamaResponse.t) :
  let choice := firstChoice data in
  exists (text : string) (reason : FinishReason),
    GenerateContentResponse.candidates (fromOpenAiResponse data)
    = [Candidate.mk (Content.mk (Some "model") (Some [Part.ofText text])) reason]
    /\ (forall t, messageContent choice = Some t -> text = t)
    /\ (forall t, messageContent choice = None ->
                  deltaContent choice = Some t -> text = t)
    /\ (messageContent choice = None -> deltaContent choice = None ->
        text = getErrorMessage choice)
    /\ (forall usage, chain data OllamaResponse.usage = Some usage ->
          GenerateContentResponse.usageMetadata (fromOpenAiResponse data)
          = Some (UsageMetadata.mk (Usage.prompt_tokens usage)
                    (Usage.completion_tokens usage)
                    (Usage.total_tokens usage)))
    /\ (chain data OllamaResponse.usage = None ->
        GenerateContentResponse.usageMetadata (fromOpenAiResponse data) = None).
Proof.
  intros choice. unfold fromOpenAiResponse. fold choice.
  eexists. eexists. split; [reflexivity |].
  repeat split.
  - intros t Hm. now rewrite Hm.
  - intros t Hm Hd. now rewrite Hm, Hd.
  - intros Hm Hd. now rewrite Hm, Hd.
  - intros usage Hu. simpl. now rewrite Hu.
  - intros Hu. simpl. now rewrite Hu.
Qed.

(** C4. The finish-reason mapping is total: when the first choice's
    [finish_reason] is exactly ["length"] the candidate's finish reason is
    [MAX_TOKENS]; for every other string, and when there is none, it is
    [STOP]. *)
Theorem finishReason_mapping (data : option OllamaResponse.t) :
  exists candidate : Candidate.t,
    GenerateContentResponse.candidates (fromOpenAiResponse data) = [candidate]
    /\ (chain (firstChoice data) Choice.finish_reason = Some "length" ->
        Candidate.finishReason candidate = MAX_TOKENS)
    /\ (chain (firstChoice data) Choice.finish_reason <> Some "length" ->
        Candidate.finishReason candidate = STOP).
Proof.
  unfold fromOpenAiResponse. eexists. split; [reflexivity |]. simpl.
  destruct (chain (firstChoice data) Choice.finish_reason) as [reason |]; simpl.
  - destruct (String.eqb_spec reason "length") as [-> | Hne]; split; intro H.
    + reflexivity.
    + now elim H.
    + now inversion H.
    + reflexivity.
  - split; intro H; [discriminate H | reflexivity].
Qed.

End ResponseProperties.

Lemma fromOpenAiResponse_translation_witness :
  let data :=
    Some (OllamaResponse.mk
            (Some [Choice.mk None (Some (ChoiceMessage.mk (Some "partial"))) None])
            (Some (Usage.mk (Some 7%Z) None (Some 9%Z)))) in
  exists reason : FinishReason,
    GenerateContentResponse.candidates (fromOpenAiResponse (imports := specImports) data)
    = [Candidate.mk (Content.mk (Some "model") (Some [Part.ofText "partial"])) reason]
    /\ GenerateContentResponse.usageMetadata
         (fromOpenAiResponse (imports := specImports) data)
       = Some (UsageMetadata.mk (Some 7%Z) None (Some 9%Z)).
Proof.
  intros data.
  destruct (fromOpenAiResponse_translation (imports := specImports) data)
    as (text & reason & Hcand & _ & Hdelta & _ & Husage & _).
  exists reason. split.
  - rewrite Hcand. rewrite (Hdelta "partial" eq_refl eq_refl). reflexivity.
  - exact (Husage (Usage.mk (Some 7%Z) None (Some 9%Z)) eq_refl).
Defined.

Lemma finishReason_mapping_witness :
  exists candidate : Candidate.t,
    GenerateContentResponse.candidates
      (fromOpenAiResponse (imports := specImports)
         (Some (OllamaResponse.mk
                  (Some [Choice.mk (Some (ChoiceMessage.mk (Some "cut")))
                           None (Some "length")])
                  None)))
    = [candidate]
    /\ Candidate.finishReason candidate = MAX_TOKENS.
Proof.
  destruct (finishReason_mapping (imports := specImports)
              (Some (OllamaResponse.mk
                       (Some [Choice.mk (Some (ChoiceMessage.mk (Some "cut")))
                                None (Some "length")])
                       None)))
    as (candidate & Hcand & Hlength & _).
  exists candidate. split; [exact Hcand | exact (Hlength eq_refl)].
Defined.

(** ** The message translator and the network call *)

Lemma partsToContent_all_empty (parts : list Part.t) :
  Forall (fun p => renderPart p = "") parts -> partsToContent parts = "".
Proof.
  intros Hall. unfold partsToContent. apply join_all_empty.
  apply Forall_forall. intros s Hin. apply in_map_iff in Hin.
  destruct Hin as (p & <- & Hp). rewrite Forall_forall in Hall. now apply Hall.
Qed.

Lemma toOpenAiMessages_length (contents : list Content.t) :
  List.length (toOpenAiMessages contents) = List.length contents.
Proof. unfold toOpenAiMessages. apply length_map. Qed.

(** The message of the [i]-th content is the [i]-th message. *)
Lemma toOpenAiMessages_nth (contents : list Content.t) (i : nat) (c : Content.t) :
  nth_error contents i = Some c ->
  exists m : Message.t,
    nth_error (toOpenAiMessages contents) i = Some m
    /\ Message.content m = partsToContent (orEmpty (Content.parts c))
    /\ (Content.role c = Some "user" -> Message.role m = "user")
    /\ (Content.role c <> Some "user" -> Message.role m = "assistant").
Proof.
  intros Hnth. unfold toOpenAiMessages.
  eexists. split; [apply map_nth_error; exact Hnth |].
  simpl. split; [reflexivity |].
  destruct (Content.role c) as [r |].
  - destruct (String.eqb_spec r "user") as [-> | Hne]; split; intro H.
    + reflexivity.
    + now elim H.
    + now inversion H.
    + reflexivity.
  - split; intro H; [discriminate H | reflexivity].
Qed.

Section GeneratorProperties.

Context {imports : Imports}.

(** Whatever the network answers, [generateContent] makes one call, and
    its body carries the messages built from the request. *)
Lemma generateContent_calls (net : Network) (this : OllamaContentGenerator.t)
    (request : GenerateContentParameters.t ContentListUnion) (id : string) :
  fst (run net (generateContent this request id))
  = [(chatUrl this, chatInit this request)].
Proof.
  unfold generateContent. simpl.
  destruct (net (chatUrl this) (chatInit this request)) as [response | e];
    [| reflexivity].
  destruct (negb (HttpResponse.ok response)); [reflexivity |].
  destruct (HttpResponse.json response); reflexivity.
Qed.

Lemma systemMessages_length (si : option SystemInstruction) :
  List.length (systemMessages si) = if truthyInstruction si then 1 else 0.
Proof. unfold systemMessages. destruct (truthyInstruction si); reflexivity. Qed.

(** C1, as the code has it.  The message list [generateContent] sends has
    one message per input Content, and one more when the system
    instruction is truthy (present, and not the empty string); no Content
    is filtered out, and a Content none of whose parts renders to a
    non-empty string still gives a message, with the empty string as its
    content. *)
Theorem message_count (net : Network) (this : OllamaContentGenerator.t)
    (request : GenerateContentParameters.t ContentListUnion) (id : string) :
  let contents :=
    toContents (contentsOrEmpty (GenerateContentParameters.contents request)) in
  let systemInstruction :=
    chain (GenerateContentParameters.config request)
          OllamaRequestConfig.systemInstruction in
  let offset := if truthyInstruction systemInstruction then 1 else 0 in
  exists (url : string) (init : RequestInit.t),
    fst (run net (generateContent this request id)) = [(url, init)]
    /\ List.length (ChatBody.messages (RequestInit.body init))
       = offset + List.length contents
    /\ forall (i : nat) (c : Content.t),
         nth_error contents i = Some c ->
         exists m : Message.t,
           nth_error (ChatBody.messages (RequestInit.body init)) (offset + i)
           = Some m
           /\ Message.content m = partsToContent (orEmpty (Content.parts c))
           /\ (Forall (fun p => renderPart p = "") (orEmpty (Content.parts c)) ->
               Message.content m = "").
Proof.
  intros contents systemInstruction offset.
  exists (chatUrl this), (chatInit this request).
  split; [apply generateContent_calls |].
  simpl. unfold requestMessages.
  fold contents. fold systemInstruction.
  split.
  - rewrite length_app, systemMessages_length, toOpenAiMessages_length.
    reflexivity.
  - intros i c Hnth.
    destruct (toOpenAiMessages_nth contents i c Hnth) as (m & Hm & Hcontent & _).
    exists m. split; [| split].
    + rewrite nth_error_app2; rewrite systemMessages_length; fold offset;
        [| lia].
      replace (offset + i - offset) with i by lia. exact Hm.
    + exact Hcontent.
    + intros Hall. rewrite Hcontent. now apply partsToContent_all_empty.
Qed.

(** C5, as the code has it.  When the system instruction is truthy
    (present, and not the empty string), the first message sent has the
    role ["system"] and comes before all turn messages; its content is the
    instruction itself when it is a string, and the part renderer's
    flattening of its parts when it is a Content.  The messages after it
    are those of the input Contents, in input order, with the role
    ["user"] when the Content's role is exactly ["user"] and
    ["assistant"] otherwise. *)
Theorem system_message_first (net : Network) (this : OllamaContentGenerator.t)
    (request : GenerateContentParameters.t ContentListUnion) (id : string)
    (instruction : SystemInstruction) :
  chain (GenerateContentParameters.config request)
        OllamaRequestConfig.systemInstruction = Some instruction ->
  truthyInstruction (Some instruction) = true ->
  let contents :=
    toContents (contentsOrEmpty (GenerateContentParameters.contents request)) in
  exists (url : string) (init : RequestInit.t) (turns : list Message.t),
    fst (run net (generateContent this request id)) = [(url, init)]
    /\ ChatBody.messages (RequestInit.body init)
       = Message.mk "system"
           (match instruction with
            | InstructionString s => s
            | InstructionContent c => partsToContent (orEmpty (Content.parts c))
            end) :: turns
    /\ List.length turns = List.length contents
    /\ forall (i : nat) (c : Content.t),
         nth_error contents i = Some c ->
         exists m : Message.t,
           nth_error turns i = Some m
           /\ Message.content m = partsToContent (orEmpty (Content.parts c))
           /\ (Content.role c = Some "user" -> Message.role m = "user")
           /\ (Content.role c <> Some "user" -> Message.role m = "assistant").
Proof.
  intros Hinstruction Htruthy contents.
  exists (chatUrl this), (chatInit this request), (toOpenAiMessages contents).
  split; [apply generateContent_calls |].
  split; [| split].
  - simpl. unfold requestMessages. rewrite Hinstruction.
    unfold systemMessages. rewrite Htruthy.
    destruct instruction; reflexivity.
  - apply toOpenAiMessages_length.
  - intros i c Hnth. now apply toOpenAiMessages_nth.
Qed.

End GeneratorProperties.

(** ** The token estimator *)

(** The ceiling of a quarter, in integers. *)
Lemma Qceiling_quarter (n : Z) : Qceiling (inject_Z n / 4)%Q = ((n + 3) / 4)%Z.
Proof.
  unfold Qceiling, Qfloor, Qdiv, Qmult, Qinv, Qopp, inject_Z. simpl.
  rewrite Z.mul_1_r.
  Z.div_mod_to_equations. lia.
Qed.

Lemma estimateTokens_ceiling (length : nat) (c : Z) :
  (4 * (c - 1) < Z.of_nat length <= 4 * c)%Z ->
  estimateTokens length = Z.max 1 c.
Proof.
  intros Hc. unfold estimateTokens. rewrite Qceiling_quarter.
  f_equal. Z.div_mod_to_equations. lia.
Qed.

Section EstimatorProperties.

Context {imports : Imports}.

(** C6. The token estimate [countTokens] returns is [max(1, ceil(L/4))],
    [L] being the length of the flattened text; it is never zero: an empty
    text gives 1, a text of 4 characters 1, of 5 characters 2, of
    40 characters 10. *)
Theorem countTokens_estimate (net : Network)
    (request : CountTokensParameters.t ContentListUnion) :
  let L := Z.of_nat (String.length (countTokensText request)) in
  exists tokens : Z,
    run net (countTokens request) = ([], Fulfilled (CountTokensResponse.mk tokens))
    /\ (forall c : Z, 4 * (c - 1) < L <= 4 * c -> tokens = Z.max 1 c)%Z
    /\ (1 <= tokens)%Z
    /\ (L = 0 -> tokens = 1)%Z
    /\ (L = 4 -> tokens = 1)%Z
    /\ (L = 5 -> tokens = 2)%Z
    /\ (L = 40 -> tokens = 10)%Z.
Proof.
  intros L. exists (estimateTokens (String.length (countTokensText request))).
  split; [reflexivity |].
  assert (Hc : forall c : Z, (4 * (c - 1) < L <= 4 * c)%Z ->
               estimateTokens (String.length (countTokensText request)) = Z.max 1 c).
  { intros c Hc. now apply estimateTokens_ceiling. }
  split; [exact Hc |].
  split; [unfold estimateTokens; lia |].
  repeat split; intros HL.
  - rewrite (Hc 0%Z); lia.
  - rewrite (Hc 1%Z); lia.
  - rewrite (Hc 2%Z); lia.
  - rewrite (Hc 10%Z); lia.
Qed.

End EstimatorProperties.

(** ** Failures *)

Section FailureProperties.

Context {imports : Imports}.

(** C8. When the backend answers with a status outside 200-299,
    [generateContent] fails at once: the promise is rejected with the
    message [Ollama request failed (<status>): <body>], which contains the
    status code and the body text, and no response is produced. *)
Theorem generateContent_http_failure (net : Network)
    (this : OllamaContentGenerator.t)
    (request : GenerateContentParameters.t ContentListUnion) (id : string)
    (response : HttpResponse.t) :
  net (chatUrl this) (chatInit this request) = Fulfilled response ->
  ~ (200 <= HttpResponse.status response <= 299)%N ->
  exists message : string,
    run net (generateContent this request id)
    = ([(chatUrl this, chatInit this request)], Rejected message)
    /\ message = "Ollama request failed ("
                   ++ stringOfN (HttpResponse.status response) ++ "): "
                   ++ HttpResponse.text response
    /\ contains (stringOfN (HttpResponse.status response)) message
    /\ contains (HttpResponse.text response) message.
Proof.
  intros Hnet Hstatus.
  assert (Hok : HttpResponse.ok response = false).
  { unfold HttpResponse.ok. apply andb_false_iff.
    destruct (N.leb_spec 200 (HttpResponse.status response)) as [Hlo | Hlo];
      [| now left].
    right. apply N.leb_gt. lia. }
  eexists. split; [| split; [reflexivity | split]].
  - unfold generateContent. simpl. rewrite Hnet, Hok. reflexivity.
  - apply contains_middle.
  - exists ("Ollama request failed ("
              ++ stringOfN (HttpResponse.status response) ++ "): "), "".
    rewrite string_app_nil_r.
    now rewrite !string_app_assoc.
Qed.

End FailureProperties.

(** C9. Whatever the request, [embedContent] fails with the message that
    embedding is not supported for Ollama backends, and it makes no network
    call. *)
Theorem embedContent_unsupported :
  forall (EmbedContentParameters EmbedContentResponse : Type) (net : Network)
         (request : EmbedContentParameters),
    run net (embedContent request : Async EmbedContentResponse)
    = ([], Rejected embedUnsupported)
    /\ contains "not supported" embedUnsupported
    /\ contains "Ollama" embedUnsupported.
Proof.
  intros. split; [reflexivity |]. split.
  - exists "Embedding is ", " for Ollama backends yet.". reflexivity.
  - exists "Embedding is not supported for ", " backends yet.". reflexivity.
Qed.

(** ** Closed instances *)

Lemma countTokens_estimate_witness :
  run (fun _ _ => Rejected "offline")
      (countTokens (imports := specImports)
         (CountTokensParameters.mk
            (Some [Content.mk (Some "user") (Some [Part.ofText "hello"])])))
  = ([], Fulfilled (CountTokensResponse.mk 2)).
Proof.
  destruct (countTokens_estimate (imports := specImports)
              (fun _ _ => Rejected "offline")
              (CountTokensParameters.mk
                 (Some [Content.mk (Some "user") (Some [Part.ofText "hello"])])))
    as (tokens & Hrun & _ & _ & _ & _ & Hfive & _).
  rewrite Hrun. rewrite (Hfive eq_refl). reflexivity.
Defined.

Lemma generateContent_http_failure_witness :
  let net : Network :=
    fun _ _ => Fulfilled (HttpResponse.mk 500 "oops" (Rejected "not read")) in
  let this := constructor (OllamaOptions.mk "http://localhost:11434/v1/" "llama3") in
  let request : GenerateContentParameters.t (@ContentListUnion specImports) :=
    GenerateContentParameters.mk None
      (Some [Content.mk (Some "user") (Some [Part.ofText "hi"])]) None in
  snd (run net (generateContent (imports := specImports) this request "prompt-1"))
  = Rejected "Ollama request failed (500): oops".
Proof.
  intros net this request.
  destruct (generateContent_http_failure (imports := specImports)
              net this request "prompt-1"
              (HttpResponse.mk 500 "oops" (Rejected "not read")))
    as (message & Hrun & Hmessage & _).
  - reflexivity.
  - simpl. lia.
  - rewrite Hrun, Hmessage. reflexivity.
Defined.

Lemma message_count_witness :
  let net : Network := fun _ _ => Rejected "offline" in
  let this := constructor (OllamaOptions.mk "http://localhost:11434/v1" "llama3") in
  let request : GenerateContentParameters.t (@ContentListUnion specImports) :=
    GenerateContentParameters.mk None
      (Some [Content.mk (Some "user") (Some [Part.empty; Part.ofText ""])]) None in
  exists (url : string) (init : RequestInit.t) (m : Message.t),
    fst (run net (generateContent (imports := specImports) this request "prompt-1"))
    = [(url, init)]
    /\ List.length (ChatBody.messages (RequestInit.body init)) = 1
    /\ nth_error (ChatBody.messages (RequestInit.body init)) 0 = Some m
    /\ Message.content m = "".
Proof.
  intros net this request.
  destruct (message_count (imports := specImports) net this request "prompt-1")
    as (url & init & Hcalls & Hlength & Hnth).
  destruct (Hnth 0 (Content.mk (Some "user") (Some [Part.empty; Part.ofText ""]))
              eq_refl)
    as (m & Hm & _ & Hempty).
  exists url, init, m. repeat split.
  - exact Hcalls.
  - exact Hlength.
  - exact Hm.
  - apply Hempty. simpl. repeat constructor.
Defined.

(** A system instruction that is the empty string is present, and adds no
    message: one Content, one message. *)
Lemma message_count_counterexample :
  let request : GenerateContentParameters.t (@ContentListUnion specImports) :=
    GenerateContentParameters.mk None
      (Some [Content.mk (Some "user") (Some [Part.ofText "hi"])])
      (Some (OllamaRequestConfig.mk None (Some (InstructionString "")))) in
  chain (GenerateContentParameters.config request)
        OllamaRequestConfig.systemInstruction
  = Some (InstructionString "")
  /\ List.length
       (toContents (contentsOrEmpty (GenerateContentParameters.contents request)))
     = 1
  /\ List.length (requestMessages (imports := specImports) request) <> 1 + 1.
Proof.
  intros request. repeat split. simpl. discriminate.
Qed.

Lemma system_message_first_witness :
  let net : Network := fun _ _ => Rejected "offline" in
  let this := constructor (OllamaOptions.mk "http://localhost:11434/v1" "llama3") in
  let request : GenerateContentParameters.t (@ContentListUnion specImports) :=
    GenerateContentParameters.mk None
      (Some [Content.mk (Some "user") (Some [Part.ofText "hi"]);
             Content.mk (Some "model") (Some [Part.ofText "hello"])])
      (Some (OllamaRequestConfig.mk None (Some (InstructionString "Be concise")))) in
  exists (url : string) (init : RequestInit.t) (turns : list Message.t),
    fst (run net (generateContent (imports := specImports) this request "prompt-1"))
    = [(url, init)]
    /\ ChatBody.messages (RequestInit.body init)
       = Message.mk "system" "Be concise" :: turns
    /\ List.length turns = 2.
Proof.
  intros net this request.
  destruct (system_message_first (imports := specImports) net this request
              "prompt-1" (InstructionString "Be concise") eq_refl eq_refl)
    as (url & init & turns & Hcalls & Hmessages & Hlength & _).
  exists url, init, turns. repeat split.
  - exact Hcalls.
  - exact Hmessages.
  - exact Hlength.
Defined.

(** A system instruction that is the empty string is present, and the first
    message sent is the first turn's, with the role [user]. *)
Lemma system_message_first_counterexample :
  let request : GenerateContentParameters.t (@ContentListUnion specImports) :=
    GenerateContentParameters.mk None
      (Some [Content.mk (Some "user") (Some [Part.ofText "hi"])])
      (Some (OllamaRequestConfig.mk None (Some (InstructionString "")))) in
  chain (GenerateContentParameters.config request)
        OllamaRequestConfig.systemInstruction
  = Some (InstructionString "")
  /\ requestMessages (imports := specImports) request = [Message.mk "user" "hi"]
  /\ ~ (exists (m : Message.t) (rest : list Message.t),
          requestMessages (imports := specImports) request = m :: rest
          /\ Message.role m = "system").
Proof.
  intros request. repeat split.
  intros (m & rest & Hmessages & Hrole).
  change (requestMessages (imports := specImports) request)
    with [Message.mk "user" "hi"] in Hmessages.
  injection Hmessages as <- _. discriminate Hrole.
Qed.

(** * Further properties of the generator *)

(** ** The constructor *)

Lemma truthyString_app_r (s t : string) :
  truthyString t = true -> truthyString (s ++ t) = true.
Proof. destruct s; simpl; [trivial | reflexivity]. Qed.

Lemma stripTrailingSlash_app_slash (base : string) :
  stripTrailingSlash (base ++ "/") = base.
Proof.
  induction base as [| c base IH]; [reflexivity |].
  simpl. rewrite (truthyString_app_r base "/" eq_refl).
  rewrite andb_false_r. now rewrite IH.
Qed.

Lemma endsWithSlash_app_slash (base : string) : endsWithSlash (base ++ "/") = true.
Proof.
  induction base as [| c base IH]; [reflexivity |].
  simpl. now rewrite (truthyString_app_r base "/" eq_refl).
Qed.

Lemma stripTrailingSlash_no_slash (s : string) :
  endsWithSlash s = false -> stripTrailingSlash s = s.
Proof.
  induction s as [| c rest IH]; intros Hend; [reflexivity |].
  destruct rest as [| c' rest'].
  - simpl in *. now rewrite Hend.
  - change (stripTrailingSlash (String c (String c' rest')))
      with (if (Ascii.eqb c "/" && false)%bool then ""
            else String c (stripTrailingSlash (String c' rest'))).
    rewrite andb_false_r. f_equal. apply IH. exact Hend.
Qed.

(** X1. The constructor removes one slash from the end of the base URL, and
    only one: a base URL given with a final slash and the same one given
    without it lead to the same endpoint, a base URL that does not end with
    a slash is kept as it is, and the model name is kept. *)
Theorem constructor_baseUrl :
  (forall base model : string,
      endsWithSlash (base ++ "/") = true
      /\ OllamaContentGenerator.baseUrl
           (constructor (OllamaOptions.mk (base ++ "/") model))
         = base
      /\ chatUrl (constructor (OllamaOptions.mk (base ++ "/") model))
         = base ++ "/chat/completions")
  /\ (forall base model : string,
        endsWithSlash base = false ->
        constructor (OllamaOptions.mk base model)
        = OllamaContentGenerator.mk base model)
  /\ (forall base model : string,
        OllamaContentGenerator.model (constructor (OllamaOptions.mk base model))
        = model).
Proof.
  split; [| split].
  - intros base model. split; [apply endsWithSlash_app_slash |].
    unfold chatUrl, constructor. simpl.
    now rewrite stripTrailingSlash_app_slash.
  - intros base model Hend. unfold constructor. simpl.
    now rewrite stripTrailingSlash_no_slash.
  - reflexivity.
Qed.

Lemma constructor_baseUrl_witness :
  constructor (OllamaOptions.mk "http://localhost:11434/v1" "llama3")
  = OllamaContentGenerator.mk "http://localhost:11434/v1" "llama3"
  /\ OllamaContentGenerator.baseUrl
       (constructor (OllamaOptions.mk "http://localhost:11434/v1//" "llama3"))
     = "http://localhost:11434/v1/".
Proof.
  split.
  - apply (proj1 (proj2 constructor_baseUrl)). reflexivity.
  - apply (proj1 constructor_baseUrl "http://localhost:11434/v1/" "llama3").
Defined.

(** ** The network call *)

(** Running a sequenced body: the calls of the first part, then, when it
    resolves, those of the second. *)
Lemma run_bind {A B : Type} (net : Network) (p : Async A) (f : A -> Async B) :
  run net (bind p f)
  = match run net p with
    | (calls, Fulfilled v) =>
        let (calls', out) := run net (f v) in ((calls ++ calls')%list, out)
    | (calls, Rejected e) => (calls, Rejected e)
    end.
Proof.
  induction p as [v | e | url init k IH]; simpl.
  - now destruct (run net (f v)).
  - reflexivity.
  - destruct (net url init) as [response | e]; [| reflexivity].
    rewrite IH. destruct (run net (k response)) as [calls [v | e]].
    + now destruct (run net (f v)).
    + reflexivity.
Qed.

Section CallProperties.

Context {imports : Imports}.

(** X2. Whatever the network answers -- a response of any status or a
    rejection -- [generateContent] makes exactly one call and never a second
    one: a POST to [<baseUrl>/chat/completions] with the one header
    [Content-Type: application/json], whose body has [stream] false and
    carries the messages built from the request. *)
Theorem generateContent_single_call (net : Network)
    (this : OllamaContentGenerator.t)
    (request : GenerateContentParameters.t ContentListUnion) (id : string) :
  exists init : RequestInit.t,
    fst (run net (generateContent this request id))
    = [(OllamaContentGenerator.baseUrl this ++ "/chat/completions", init)]
    /\ RequestInit.method init = "POST"
    /\ RequestInit.headers init = [("Content-Type", "application/json")]
    /\ ChatBody.stream (RequestInit.body init) = false
    /\ ChatBody.messages (RequestInit.body init) = requestMessages request.
Proof.
  exists (chatInit this request).
  split; [| repeat split].
  unfold generateContent. simpl.
  destruct (net (chatUrl this) (chatInit this request)) as [response | e];
    [| reflexivity].
  destruct (negb (HttpResponse.ok response)); [reflexivity |].
  destruct (HttpResponse.json response); reflexivity.
Qed.

(** X3. The model named in the body is the request's when it names one, and
    the generator's when the request names none or names the empty string.
    The three generation knobs are passed as given, each on its own; they
    are all absent when the request has no config or the config has no
    generation config. *)
Theorem requestBody_passthrough (this : OllamaContentGenerator.t)
    (request : GenerateContentParameters.t ContentListUnion) :
  let body := RequestInit.body (chatInit this request) in
  (forall m : string,
      GenerateContentParameters.model request = Some m -> m <> "" ->
      ChatBody.model body = m)
  /\ (GenerateContentParameters.model request = None
      \/ GenerateContentParameters.model request = Some "" ->
      ChatBody.model body = OllamaContentGenerator.model this)
  /\ (forall (config : OllamaRequestConfig.t) (knobs : GenerationConfig.t),
        GenerateContentParameters.config request = Some config ->
        OllamaRequestConfig.generationConfig config = Some knobs ->
        ChatBody.temperature body = GenerationConfig.temperature knobs
        /\ ChatBody.top_p body = GenerationConfig.topP knobs
        /\ ChatBody.max_tokens body = GenerationConfig.maxOutputTokens knobs)
  /\ (chain (GenerateContentParameters.config request)
            OllamaRequestConfig.generationConfig = None ->
      ChatBody.temperature body = None
      /\ ChatBody.top_p body = None
      /\ ChatBody.max_tokens body = None).
Proof.
  simpl. split; [| split; [| split]].
  - intros m Hm Hne. rewrite Hm, (whenTruthy_nonempty m Hne). reflexivity.
  - intros [Hm | Hm]; rewrite Hm; reflexivity.
  - intros config knobs Hconfig Hknobs. rewrite Hconfig. simpl. rewrite Hknobs.
    repeat split.
  - intros Hnone. rewrite Hnone. repeat split.
Qed.

(** X4. When the backend answers with a status in 200-299 and the body
    parses, [generateContent] resolves after its one call with the
    translation of the parsed body; nothing of the request enters the
    response. *)
Theorem generateContent_success (net : Network)
    (this : OllamaContentGenerator.t)
    (request : GenerateContentParameters.t ContentListUnion) (id : string)
    (response : HttpResponse.t) (data : option OllamaResponse.t) :
  net (chatUrl this) (chatInit this request) = Fulfilled response ->
  (200 <= HttpResponse.status response <= 299)%N ->
  HttpResponse.json response = Fulfilled data ->
  run net (generateContent this request id)
  = ([(chatUrl this, chatInit this request)], Fulfilled (fromOpenAiResponse data)).
Proof.
  intros Hnet [Hlo Hhi] Hjson.
  assert (Hok : HttpResponse.ok response = true).
  { unfold HttpResponse.ok. apply andb_true_iff. split; now apply N.leb_le. }
  unfold generateContent. simpl. rewrite Hnet, Hok, Hjson. reflexivity.
Qed.

(** X5. Failures other than a bad status are passed on unchanged and are
    not retried: when the call itself is rejected, and when the status is in
    200-299 but reading the body as JSON is rejected, the promise is
    rejected with that same message after the one call. *)
Theorem generateContent_rejections (net : Network)
    (this : OllamaContentGenerator.t)
    (request : GenerateContentParameters.t ContentListUnion) (id : string) :
  (forall e : string,
      net (chatUrl this) (chatInit this request) = Rejected e ->
      run net (generateContent this request id)
      = ([(chatUrl this, chatInit this request)], Rejected e))
  /\ (forall (response : HttpResponse.t) (e : string),
        net (chatUrl this) (chatInit this request) = Fulfilled response ->
        HttpResponse.ok response = true ->
        HttpResponse.json response = Rejected e ->
        run net (generateContent this request id)
        = ([(chatUrl this, chatInit this request)], Rejected e)).
Proof.
  split.
  - intros e Hnet. unfold generateContent. simpl. now rewrite Hnet.
  - intros response e Hnet Hok Hjson.
    unfold generateContent. simpl. now rewrite Hnet, Hok, Hjson.
Qed.

(** X6. [generateContentStream] makes the calls [generateContent] makes and
    no other; when [generateContent] resolves, the stream has exactly one
    element, that response, and when [generateContent] is rejected the
    stream is never made: the rejection is passed on with its message. *)
Theorem generateContentStream_one_chunk (net : Network)
    (this : OllamaContentGenerator.t)
    (request : GenerateContentParameters.t ContentListUnion) (id : string) :
  fst (run net (generateContentStream this request id))
  = fst (run net (generateContent this request id))
  /\ snd (run net (generateContentStream this request id))
     = match snd (run net (generateContent this request id)) with
       | Fulfilled response => Fulfilled [response]
       | Rejected e => Rejected e
       end.
Proof.
  unfold generateContentStream. rewrite run_bind.
  destruct (run net (generateContent this request id)) as [calls [response | e]];
    simpl.
  - now rewrite app_nil_r.
  - now split.
Qed.

End CallProperties.

(** ** The response translator, further *)

Section TranslationProperties.

Context {imports : Imports}.

(** X7. Only the first choice of a reply is read: the choices after it
    change nothing in the translation.  A reply without a first choice --
    no reply at all, no [choices], or an empty list -- gives one candidate
    with the error-description string of a missing choice as its text and
    the finish reason [STOP]. *)
Theorem fromOpenAiResponse_first_choice :
  (forall (choice : Choice.t) (others : list Choice.t) (usage : option Usage.t),
      fromOpenAiResponse (Some (OllamaResponse.mk (Some (choice :: others)) usage))
      = fromOpenAiResponse (Some (OllamaResponse.mk (Some [choice]) usage)))
  /\ (forall data : option OllamaResponse.t,
        data = None
        \/ chain data OllamaResponse.choices = None
        \/ chain data OllamaResponse.choices = Some [] ->
        GenerateContentResponse.candidates (fromOpenAiResponse data)
        = [Candidate.mk
             (Content.mk (Some "model") (Some [Part.ofText (getErrorMessage None)]))
             STOP]).
Proof.
  split; [reflexivity |].
  intros data Hdata.
  assert (Hchoice : firstChoice data = None).
  { unfold firstChoice. destruct Hdata as [-> | [-> | ->]]; reflexivity. }
  unfold fromOpenAiResponse. rewrite Hchoice. reflexivity.
Qed.

Lemma partsToContent_ofText (text : string) :
  partsToContent [Part.ofText text] = text.
Proof. destruct text; reflexivity. Qed.

(** X8. A reply fed back as history: the content of the candidate, given
    as a Content of a later request, becomes one message with the role
    [assistant] whose content is the text of the reply, unchanged -- the
    first choice's message content, else its delta content, else the
    error-description string. *)
Theorem reply_as_history (data : option OllamaResponse.t) :
  let choice := firstChoice data in
  toOpenAiMessages
    (map Candidate.content
         (GenerateContentResponse.candidates (fromOpenAiResponse data)))
  = [Message.mk "assistant"
       (nullish (orElse (messageContent choice) (deltaContent choice))
                (getErrorMessage choice))].
Proof.
  intros choice. unfold fromOpenAiResponse. fold choice.
  cbn [GenerateContentResponse.candidates map Candidate.content toOpenAiMessages
       Content.role Content.parts orEmpty].
  rewrite partsToContent_ofText. reflexivity.
Qed.

End TranslationProperties.

(** ** The part renderer, further *)

Lemma whenTruthy_None (t : option string) :
  whenTruthy t = None <-> t = None \/ t = Some "".
Proof.
  destruct t as [[| c s] |]; simpl; split; intro H;
    try reflexivity; try discriminate; auto.
  destruct H as [H | H]; discriminate.
Qed.

Lemma whenTruthy_truthy (t : option string) (v : string) :
  whenTruthy t = Some v -> truthyString v = true.
Proof.
  destruct t as [s |]; simpl; [| discriminate].
  destruct (truthyString s) eqn:Hs; [| discriminate]. now intros [= <-].
Qed.

Lemma renderPart_empty (part : Part.t) :
  renderPart part = ""
  <-> (Part.text part = None \/ Part.text part = Some "")
      /\ Part.functionCall part = None
      /\ Part.functionResponse part = None.
Proof.
  rewrite <- whenTruthy_None. unfold renderPart.
  destruct (whenTruthy (Part.text part)) as [v |] eqn:Htext.
  - pose proof (whenTruthy_truthy _ _ Htext) as Hv.
    split; [intros -> | intros [H _]]; discriminate.
  - destruct (Part.functionCall part) as [call |].
    + split; [intros H | intros (_ & H & _)]; discriminate.
    + destruct (Part.functionResponse part) as [resp |].
      * split; [intros H | intros (_ & _ & H)]; discriminate.
      * now split.
Qed.

Lemma filter_truthy_nil (l : list string) :
  filter truthyString l = [] <-> Forall (fun s => s = "") l.
Proof.
  induction l as [| s l IH]; simpl.
  - split; [constructor | reflexivity].
  - destruct s as [| c s]; simpl.
    + rewrite IH. split; intro H; [now constructor | now inversion H].
    + split; intro H; [discriminate | inversion H; discriminate].
Qed.

Lemma partsToContent_truthy (parts : list Part.t) :
  truthyString (partsToContent parts)
  = negb (Nat.eqb (List.length (filter truthyString (map renderPart parts))) 0).
Proof. unfold partsToContent. apply join_truthy, filter_truthy_Forall. Qed.

(** X9. The content built from a list of parts is the empty string exactly
    when every part is blank: its text is missing or empty, and it has
    neither a function call nor a function response.  So a function-call or
    function-response part is never dropped, whatever its name and
    arguments. *)
Theorem partsToContent_empty_iff (parts : list Part.t) :
  partsToContent parts = ""
  <-> Forall (fun part =>
                (Part.text part = None \/ Part.text part = Some "")
                /\ Part.functionCall part = None
                /\ Part.functionResponse part = None) parts.
Proof.
  transitivity (filter truthyString (map renderPart parts) = []).
  - pose proof (partsToContent_truthy parts) as Htruthy.
    destruct (filter truthyString (map renderPart parts)) as [| s l] eqn:Hfilter.
    + unfold partsToContent. rewrite Hfilter. now split.
    + simpl in Htruthy. split; [intros H | discriminate].
      rewrite H in Htruthy. discriminate.
  - rewrite filter_truthy_nil, Forall_map.
    split; apply Forall_impl; intros part; apply renderPart_empty.
Qed.

Lemma join_app (sep : string) (l1 l2 : list string) :
  join sep (l1 ++ l2)
  = match l1, l2 with
    | [], _ => join sep l2
    | _, [] => join sep l1
    | _, _ => join sep l1 ++ sep ++ join sep l2
    end.
Proof.
  induction l1 as [| a l1 IH]; [reflexivity |].
  destruct l2 as [| b l2]; [now rewrite app_nil_r |].
  change (join sep ((a :: l1) ++ b :: l2))
    with (match (l1 ++ b :: l2)%list with
          | [] => a
          | _ :: _ => a ++ sep ++ join sep (l1 ++ b :: l2)
          end).
  destruct l1 as [| a' l1].
  - reflexivity.
  - rewrite IH. simpl app at 1.
    change (join sep (a :: a' :: l1)) with (a ++ sep ++ join sep (a' :: l1)).
    now rewrite !string_app_assoc.
Qed.

(** X10. Rendering composes over concatenation: the content of two lists
    of parts put end to end is the two contents separated by one newline,
    and just the other content when one of the two is empty -- no newline
    is ever put at either end. *)
Theorem partsToContent_app (first second : list Part.t) :
  partsToContent (first ++ second)
  = if truthyString (partsToContent first) then
      if truthyString (partsToContent second) then
        partsToContent first ++ newline ++ partsToContent second
      else partsToContent first
    else partsToContent second.
Proof.
  rewrite !partsToContent_truthy. unfold partsToContent.
  rewrite map_app, filter_app, join_app.
  destruct (filter truthyString (map renderPart first)) as [| a la];
    [reflexivity |].
  destruct (filter truthyString (map renderPart second)) as [| b lb];
    reflexivity.
Qed.

Lemma string_length_app (a b : string) :
  String.length (a ++ b) = String.length a + String.length b.
Proof. induction a as [| c a IH]; simpl; [reflexivity | now rewrite IH]. Qed.

Lemma join_length (sep : string) (l : list string) :
  String.length (join sep l)
  = list_sum (map String.length l) + (List.length l - 1) * String.length sep.
Proof.
  induction l as [| a l IH]; [reflexivity |].
  destruct l as [| b l].
  - simpl. lia.
  - change (join sep (a :: b :: l)) with (a ++ sep ++ join sep (b :: l)).
    rewrite !string_length_app, IH. simpl. lia.
Qed.

Lemma list_sum_filter_truthy (l : list string) :
  list_sum (map String.length (filter truthyString l))
  = list_sum (map String.length l).
Proof.
  induction l as [| [| c s] l IH]; simpl; [reflexivity | exact IH |].
  now rewrite IH.
Qed.

(** X11. The length of the content is the sum of the lengths of the
    strings the parts render to, plus one for each newline between two
    non-empty ones: with [k] non-empty strings, [k - 1] newlines (none
    when [k] is 0). *)
Theorem partsToContent_length (parts : list Part.t) :
  String.length (partsToContent parts)
  = list_sum (map (fun part => String.length (renderPart part)) parts)
    + (List.length (filter truthyString (map renderPart parts)) - 1).
Proof.
  unfold partsToContent. rewrite join_length, list_sum_filter_truthy, map_map.
  simpl. lia.
Qed.

(** ** The message translator, further *)

Lemma toOpenAiMessages_roles (contents : list Content.t) (m : Message.t) :
  In m (toOpenAiMessages contents) ->
  Message.role m = "user" \/ Message.role m = "assistant".
Proof.
  unfold toOpenAiMessages. intros Hin. apply in_map_iff in Hin.
  destruct Hin as (c & <- & _). simpl.
  destruct (Content.role c) as [r |]; [| now right].
  destruct (String.eqb r "user"); [now left | now right].
Qed.

Section RoleProperties.

Context {imports : Imports}.

(** X12. The role [system] is given by the generator alone: every message
    made from a Content has the role [user] or [assistant] -- also a Content
    whose own role is [system] -- so a message with the role [system] can
    only be the first of the list, and only when the request has a truthy
    system instruction. *)
Theorem system_role_only_first
    (request : GenerateContentParameters.t ContentListUnion)
    (i : nat) (m : Message.t) :
  nth_error (requestMessages request) i = Some m ->
  Message.role m = "system" ->
  i = 0
  /\ truthyInstruction
       (chain (GenerateContentParameters.config request)
              OllamaRequestConfig.systemInstruction) = true.
Proof.
  unfold requestMessages, systemMessages.
  destruct (truthyInstruction _) eqn:Htruthy; intros Hnth Hrole.
  - destruct i as [| j]; [now split |].
    simpl in Hnth. apply nth_error_In, toOpenAiMessages_roles in Hnth.
    rewrite Hrole in Hnth. destruct Hnth; discriminate.
  - simpl in Hnth. apply nth_error_In, toOpenAiMessages_roles in Hnth.
    rewrite Hrole in Hnth. destruct Hnth; discriminate.
Qed.

End RoleProperties.

(** ** The token estimator, further *)

Lemma estimateTokens_monotone (m n : nat) :
  m <= n -> (estimateTokens m <= estimateTokens n)%Z.
Proof.
  intros Hle. unfold estimateTokens. rewrite !Qceiling_quarter.
  Z.div_mod_to_equations. lia.
Qed.

Lemma estimateTokens_bounds (n : nat) :
  (Z.of_nat n <= 4 * estimateTokens n <= Z.max 4 (Z.of_nat n + 3))%Z.
Proof.
  unfold estimateTokens. rewrite Qceiling_quarter.
  Z.div_mod_to_equations. lia.
Qed.

Section EstimatorOrder.

Context {imports : Imports}.

(** X13. The estimate grows with the text: of two requests, the one whose
    flattened text is at least as long never gets the smaller estimate.
    Four times the estimate is never below the length of the text, and is
    above it by 3 at most, except for the floor of one token. *)
Theorem countTokens_monotone (net : Network)
    (shorter longer : CountTokensParameters.t ContentListUnion) :
  String.length (countTokensText shorter) <= String.length (countTokensText longer) ->
  exists low high : Z,
    run net (countTokens shorter) = ([], Fulfilled (CountTokensResponse.mk low))
    /\ run net (countTokens longer) = ([], Fulfilled (CountTokensResponse.mk high))
    /\ (low <= high)%Z
    /\ (Z.of_nat (String.length (countTokensText longer)) <= 4 * high)%Z
    /\ (4 * high
        <= Z.max 4 (Z.of_nat (String.length (countTokensText longer)) + 3))%Z.
Proof.
  intros Hle.
  exists (estimateTokens (String.length (countTokensText shorter))),
         (estimateTokens (String.length (countTokensText longer))).
  split; [reflexivity |]. split; [reflexivity |].
  split; [now apply estimateTokens_monotone |].
  apply estimateTokens_bounds.
Qed.

End EstimatorOrder.

Lemma countTokens_monotone_witness :
  exists low high : Z,
    run (fun _ _ => Rejected "offline")
        (countTokens (imports := specImports)
           (CountTokensParameters.mk
              (Some [Content.mk (Some "user") (Some [Part.ofText "hi"])])))
    = ([], Fulfilled (CountTokensResponse.mk low))
    /\ run (fun _ _ => Rejected "offline")
           (countTokens (imports := specImports)
              (CountTokensParameters.mk
                 (Some [Content.mk (Some "user") (Some [Part.ofText "hello there"])])))
       = ([], Fulfilled (CountTokensResponse.mk high))
    /\ (low <= high)%Z.
Proof.
  destruct (countTokens_monotone (imports := specImports)
              (fun _ _ => Rejected "offline")
              (CountTokensParameters.mk
                 (Some [Content.mk (Some "user") (Some [Part.ofText "hi"])]))
              (CountTokensParameters.mk
                 (Some [Content.mk (Some "user") (Some [Part.ofText "hello there"])])))
    as (low & high & Hlow & Hhigh & Hle & _).
  - simpl. lia.
  - exists low, high. repeat split; assumption.
Defined.

(** ** What the rendering loses *)

(** X14. The rendering cannot be read back into parts.  A text part that
    holds the line of a function call renders as the function-call part
    itself does, and two text parts with non-empty texts render as the one
    text part that holds both texts with a newline between them. *)
Theorem partsToContent_lossy :
  (forall (call : FunctionCall.t) (resp : option FunctionResponse.t),
      partsToContent [Part.mk None (Some call) resp]
      = partsToContent [Part.ofText (renderPart (Part.mk None (Some call) None))])
  /\ (forall a b : string,
        a <> "" -> b <> "" ->
        partsToContent [Part.ofText a; Part.ofText b]
        = partsToContent [Part.ofText (a ++ newline ++ b)]).
Proof.
  split.
  - intros call resp. now rewrite partsToContent_ofText.
  - intros a b Ha Hb. rewrite partsToContent_ofText.
    destruct a as [| ca a]; [now elim Ha |].
    destruct b as [| cb b]; [now elim Hb |].
    reflexivity.
Qed.

Lemma partsToContent_lossy_witness :
  partsToContent [Part.ofText "first"; Part.ofText "second"]
  = partsToContent [Part.ofText ("first" ++ newline ++ "second")].
Proof.
  apply (proj2 partsToContent_lossy "first" "second"); discriminate.
Defined.

(** ** Lines *)

Lemma list_ascii_of_string_app (a b : string) :
  list_ascii_of_string (a ++ b)
  = (list_ascii_of_string a ++ list_ascii_of_string b)%list.
Proof. induction a as [| c a IH]; simpl; [reflexivity | now rewrite IH]. Qed.

Lemma singleLine_app (a b : string) :
  singleLine a -> singleLine b -> singleLine (a ++ b).
Proof.
  unfold singleLine. rewrite list_ascii_of_string_app. intros Ha Hb Hin.
  apply in_app_or in Hin. tauto.
Qed.

Lemma singleLine_cons (c : ascii) (s : string) :
  c <> "010"%char -> singleLine s -> singleLine (String c s).
Proof.
  unfold singleLine. simpl. intros Hc Hs [Heq | Hin]; [now apply Hc | now apply Hs].
Qed.

Lemma singleLine_empty : singleLine "".
Proof. intros []. Qed.

Lemma singleLine_join (sep : string) (l : list string) :
  singleLine sep -> Forall singleLine l -> singleLine (join sep l).
Proof.
  intros Hsep Hall. induction Hall as [| a l Ha Hl IH]; [apply singleLine_empty |].
  destruct l as [| b l]; [exact Ha |].
  change (join sep (a :: b :: l)) with (a ++ sep ++ join sep (b :: l)).
  auto using singleLine_app.
Qed.

Lemma singleLine_escapeChar (c : ascii) : singleLine (Json.escapeChar c).
Proof.
  destruct c as [[] [] [] [] [] [] [] []]; vm_compute;
    intros H; repeat (destruct H as [H | H]; [discriminate H |]); exact H.
Qed.

Lemma singleLine_escape (s : string) : singleLine (Json.escape s).
Proof.
  induction s as [| c s IH]; [apply singleLine_empty |].
  simpl. apply singleLine_app; [apply singleLine_escapeChar | exact IH].
Qed.

Lemma singleLine_quote (s : string) : singleLine (Json.quote s).
Proof.
  unfold Json.quote, dquote.
  apply singleLine_cons; [discriminate |]. simpl.
  apply singleLine_app; [apply singleLine_escape |].
  apply singleLine_cons; [discriminate | apply singleLine_empty].
Qed.

Lemma singleLine_digits (d : Decimal.uint) : singleLine (NilEmpty.string_of_uint d).
Proof.
  induction d; simpl;
    [apply singleLine_empty | apply singleLine_cons; [discriminate | assumption] ..].
Qed.

Lemma singleLine_stringOfZ (z : Z) : singleLine (stringOfZ z).
Proof.
  unfold stringOfZ, NilZero.string_of_int.
  assert (Huint : forall d, singleLine (NilZero.string_of_uint d)).
  { intros d. unfold NilZero.string_of_uint.
    destruct d; try apply singleLine_digits.
    apply singleLine_cons; [discriminate | apply singleLine_empty]. }
  destruct (Z.to_int z) as [d | d]; [apply Huint |].
  apply singleLine_cons; [discriminate | apply Huint].
Qed.

Lemma singleLine_char (c : ascii) : c <> "010"%char -> singleLine (String c "").
Proof. intros Hc. apply singleLine_cons; [exact Hc | apply singleLine_empty]. Qed.

Lemma singleLine_stringify : forall v : Json.value, singleLine (Json.stringify v).
Proof.
  fix singleLine_stringify 1.
  intros v. destruct v as [| [|] | z | s | items | props].
  - repeat (apply singleLine_cons; [discriminate |]). apply singleLine_empty.
  - repeat (apply singleLine_cons; [discriminate |]). apply singleLine_empty.
  - repeat (apply singleLine_cons; [discriminate |]). apply singleLine_empty.
  - apply singleLine_stringOfZ.
  - apply singleLine_quote.
  - change (singleLine ("[" ++ join "," (map Json.stringify items) ++ "]")).
    apply singleLine_app; [now apply singleLine_char |].
    apply singleLine_app; [| now apply singleLine_char].
    apply singleLine_join; [now apply singleLine_char |].
    induction items as [| item items IH]; constructor;
      [apply singleLine_stringify | exact IH].
  - change (singleLine
              ("{" ++ join ","
                        (map (fun kv => Json.quote (fst kv) ++ ":"
                                          ++ Json.stringify (snd kv)) props)
                   ++ "}")).
    apply singleLine_app; [now apply singleLine_char |].
    apply singleLine_app; [| now apply singleLine_char].
    apply singleLine_join; [now apply singleLine_char |].
    induction props as [| [key item] props IH]; constructor; [| exact IH].
    cbn [fst snd].
    apply singleLine_app; [apply singleLine_quote |].
    apply singleLine_app; [now apply singleLine_char | apply singleLine_stringify].
Qed.

(** X15. A function call or a function response is rendered on one line:
    when its name holds no newline, neither does the rendered string,
    whatever the arguments or the response hold -- a newline inside them is
    written escaped in the JSON text. *)
Theorem function_part_single_line :
  (forall (call : FunctionCall.t) (resp : option FunctionResponse.t),
      singleLine (templateString (FunctionCall.name call)) ->
      singleLine (renderPart (Part.mk None (Some call) resp)))
  /\ (forall resp : FunctionResponse.t,
        singleLine (templateString (FunctionResponse.name resp)) ->
        singleLine (renderPart (Part.mk None None (Some resp)))).
Proof.
  assert (Hliteral : forall s : string,
             forallb (fun c => negb (Ascii.eqb c "010")) (list_ascii_of_string s)
             = true -> singleLine s).
  { intros s Hs Hin. rewrite forallb_forall in Hs. specialize (Hs _ Hin).
    now rewrite Ascii.eqb_refl in Hs. }
  split.
  - intros call resp Hname.
    change (singleLine
              ("Function call " ++ templateString (FunctionCall.name call) ++ ": "
                 ++ Json.stringify (Json.Obj (orEmptyObject (FunctionCall.args call))))).
    apply singleLine_app; [now apply Hliteral |].
    apply singleLine_app; [exact Hname |].
    apply singleLine_app; [now apply Hliteral | apply singleLine_stringify].
  - intros resp Hname.
    change (singleLine
              ("Function response " ++ templateString (FunctionResponse.name resp)
                 ++ ": "
                 ++ Json.stringify
                      (Json.Obj (orEmptyObject (FunctionResponse.response resp))))).
    apply singleLine_app; [now apply Hliteral |].
    apply singleLine_app; [exact Hname |].
    apply singleLine_app; [now apply Hliteral | apply singleLine_stringify].
Qed.

Lemma function_part_single_line_witness :
  singleLine
    (renderPart
       (Part.mk None
          (Some (FunctionCall.mk (Some "lookup")
                   (Some [("q", Json.Str ("a" ++ newline ++ "b"))])))
          None)).
Proof.
  apply (proj1 function_part_single_line).
  simpl. unfold singleLine. simpl.
  intros H; repeat (destruct H as [H | H]; [discriminate H |]); exact H.
Defined.

(** ** Closed instances of the further properties *)

Lemma requestBody_passthrough_witness :
  let this := constructor (OllamaOptions.mk "http://localhost:11434/v1" "llama3") in
  let request : GenerateContentParameters.t (@ContentListUnion specImports) :=
    GenerateContentParameters.mk (Some "")
      (Some [Content.mk (Some "user") (Some [Part.ofText "hi"])])
      (Some (OllamaRequestConfig.mk
               (Some (GenerationConfig.mk (Some (7 # 10)%Q) None (Some 256%Z)))
               None)) in
  let body := RequestInit.body (chatInit (imports := specImports) this request) in
  ChatBody.model body = "llama3"
  /\ ChatBody.temperature body = Some (7 # 10)%Q
  /\ ChatBody.top_p body = None
  /\ ChatBody.max_tokens body = Some 256%Z.
Proof.
  intros this request body.
  destruct (requestBody_passthrough (imports := specImports) this request)
    as (_ & Hmodel & Hknobs & _).
  split.
  - apply Hmodel. now right.
  - apply (Hknobs
             (OllamaRequestConfig.mk
                (Some (GenerationConfig.mk (Some (7 # 10)%Q) None (Some 256%Z)))
                None)
             (GenerationConfig.mk (Some (7 # 10)%Q) None (Some 256%Z)));
      reflexivity.
Defined.

Lemma generateContent_success_witness :
  let data :=
    Some (OllamaResponse.mk
            (Some [Choice.mk (Some (ChoiceMessage.mk (Some "hello"))) None
                     (Some "stop")])
            None) in
  let net : Network :=
    fun _ _ => Fulfilled (HttpResponse.mk 200 "{}" (Fulfilled data)) in
  let this := constructor (OllamaOptions.mk "http://localhost:11434/v1" "llama3") in
  let request : GenerateContentParameters.t (@ContentListUnion specImports) :=
    GenerateContentParameters.mk None
      (Some [Content.mk (Some "user") (Some [Part.ofText "hi"])]) None in
  snd (run net (generateContent (imports := specImports) this request "prompt-1"))
  = Fulfilled
      (GenerateContentResponse.mk
         [Candidate.mk (Content.mk (Some "model") (Some [Part.ofText "hello"])) STOP]
         None).
Proof.
  intros data net this request.
  rewrite (generateContent_success (imports := specImports) net this request
             "prompt-1" (HttpResponse.mk 200 "{}" (Fulfilled data)) data).
  - reflexivity.
  - reflexivity.
  - simpl. lia.
  - reflexivity.
Defined.

Lemma generateContent_rejections_witness :
  let this := constructor (OllamaOptions.mk "http://localhost:11434/v1" "llama3") in
  let request : GenerateContentParameters.t (@ContentListUnion specImports) :=
    GenerateContentParameters.mk None
      (Some [Content.mk (Some "user") (Some [Part.ofText "hi"])]) None in
  snd (run (fun _ _ => Rejected "connect ECONNREFUSED")
           (generateContent (imports := specImports) this request "prompt-1"))
  = Rejected "connect ECONNREFUSED"
  /\ snd (run (fun _ _ =>
                 Fulfilled (HttpResponse.mk 200 "<html>"
                              (Rejected "Unexpected token")))
              (generateContent (imports := specImports) this request "prompt-1"))
     = Rejected "Unexpected token".
Proof.
  intros this request. split.
  - rewrite (proj1 (generateContent_rejections (imports := specImports)
                      (fun _ _ => Rejected "connect ECONNREFUSED")
                      this request "prompt-1")
               "connect ECONNREFUSED" eq_refl).
    reflexivity.
  - rewrite (proj2 (generateContent_rejections (imports := specImports)
                      (fun _ _ =>
                         Fulfilled (HttpResponse.mk 200 "<html>"
                                      (Rejected "Unexpected token")))
                      this request "prompt-1")
               (HttpResponse.mk 200 "<html>" (Rejected "Unexpected token"))
               "Unexpected token" eq_refl eq_refl eq_refl).
    reflexivity.
Defined.

Lemma fromOpenAiResponse_first_choice_witness :
  GenerateContentResponse.candidates
    (fromOpenAiResponse (imports := specImports)
       (Some (OllamaResponse.mk (Some []) None)))
  = [Candidate.mk (Content.mk (Some "model") (Some [Part.ofText "undefined"])) STOP].
Proof.
  apply (proj2 (fromOpenAiResponse_first_choice (imports := specImports))
           (Some (OllamaResponse.mk (Some []) None))).
  right. right. reflexivity.
Defined.

Lemma partsToContent_empty_iff_witness :
  partsToContent [Part.empty; Part.ofText ""] = "".
Proof.
  apply (proj2 (partsToContent_empty_iff [Part.empty; Part.ofText ""])).
  constructor; [| constructor; [| constructor]].
  - split; [now left | now split].
  - split; [now right | now split].
Defined.

Lemma system_role_only_first_witness :
  let request : GenerateContentParameters.t (@ContentListUnion specImports) :=
    GenerateContentParameters.mk None
      (Some [Content.mk (Some "system") (Some [Part.ofText "obey"])])
      (Some (OllamaRequestConfig.mk None (Some (InstructionString "Be concise")))) in
  requestMessages (imports := specImports) request
  = [Message.mk "system" "Be concise"; Message.mk "assistant" "obey"]
  /\ truthyInstruction
       (chain (GenerateContentParameters.config request)
              OllamaRequestConfig.systemInstruction) = true.
Proof.
  intros request. split; [reflexivity |].
  apply (system_role_only_first (imports := specImports) request 0
           (Message.mk "system" "Be concise")); reflexivity.
Defined.
